(** * The CIO block-device adapter of Flocker ([driver/cio.py])

    A shallow embedding of [driver/cio.py] and the properties of it that
    the specification states.

    The module is Python 2 ([unicode], [long]-style UUID parsing).  Each
    [def] is read on its own, statement by statement, against the names the
    module binds at its top level.  The file has two places that Python
    refuses outright: the list display on line 195 ([2b"--bytes"]) and the
    non-ASCII dashes in the comment on line 186 (no coding line).  So
    there are two readings.  As shipped, importing the module fails and no
    [def] can be called ([import_module], [run_as_shipped]).  Read def by
    def, which is how the bodies are embedded and what the statements are
    about unless they say otherwise, line 195 is the error
    [SyntaxError 195] at the place where it stands in [create_volume], and
    the comment of line 186 has no counterpart. *)

From Stdlib Require Import ZArith NArith Ascii String List.
From stdpp Require Import base option list gmap strings.

Set Warnings "-register-all".
Local Open Scope string_scope.
Local Open Scope Z_scope.

(** ** Data *)

(** [uuid.UUID]: a 128-bit number. *)
Record UUID := mkUUID { int : N }.

(** [threading.Lock]: free or held. *)
Record Lock := mkLock { locked : bool }.

(** The volume object of the backend.  The source leaves its type open
    ("TODO identify CIO volume type") and reads the attributes [id],
    [size], [attach_data.instance_id], [attach_data.device] and [tags]. *)
Module AttachData.
Record t := mk { instance_id : option string; device : option string }.
End AttachData.

Module CIOVolume.
Record t := mk {
  id : string;
  size : Z;
  attach_data : AttachData.t;
  tags : gmap string string
}.
End CIOVolume.

(** [flocker.node.agents.blockdevice.BlockDeviceVolume]. *)
Module BlockDeviceVolume.
Record t := mk {
  blockdevice_id : string;
  size : Z;
  attached_to : option string;
  dataset_id : UUID
}.
End BlockDeviceVolume.

(** The instance state set up by [CIOBlockDeviceAPI.__init__]. *)
Record CIOBlockDeviceAPI := mkAPI { cluster_id : UUID; lock : Lock }.

(** Python objects, as far as the module binds, passes or returns them. *)
Inductive pyobj :=
| PyNone
| PyInt (n : Z)
| PyUnicode (s : string)
| PyBytes (s : string)
| PyVolume (v : CIOVolume.t)
| PyBlockDeviceVolume (v : BlockDeviceVolume.t)
| PyList (l : list pyobj)
| PyFilePath (path : string)
| PyImport (module name : string)
| PyClass (name : string)
| PyFunction (name : string).

(** ** Exceptions *)

Inductive exn :=
| NameError (name : string)
| SyntaxError (line : nat)
| KeyError (key : string)
| ValueError (msg : string)
| AttributeError (attr : string)
| TypeError (msg : string)
| UnicodeDecodeError
| UnknownVolume (blockdevice_id : string)
| AlreadyAttachedVolume (blockdevice_id : string)
| UnattachedVolume (blockdevice_id : string)
| AttachedUnexpectedDevice (requested discovered : string)
| Exception (msg : string).

(** The four error kinds the interface names. *)
Definition named_error (e : exn) : bool :=
  match e with
  | UnknownVolume _ | AlreadyAttachedVolume _ | UnattachedVolume _
  | AttachedUnexpectedDevice _ _ => true
  | _ => false
  end.

Inductive outcome (A : Type) :=
| Returned (a : A)
| Raised (e : exn).
Arguments Returned {A} a.
Arguments Raised {A} e.

Definition returns {A} (o : outcome A) : bool :=
  match o with Returned _ => true | Raised _ => false end.

Definition raises_named_error {A} (o : outcome A) : bool :=
  match o with Returned _ => false | Raised e => named_error e end.

(** ** The world an operation runs in

    [api] is the adapter instance ([self]); [instance_metadata] is what the
    cloud metadata service answers on this node; [metadata_requests] counts
    the requests made to it, the only call out of the process that the
    module makes ([check_output] is imported and never called). *)
Record World := mkWorld {
  api : CIOBlockDeviceAPI;
  instance_metadata : gmap string string;
  metadata_requests : nat
}.

Definition set_lock (l : Lock) (w : World) : World :=
  {| api := {| cluster_id := cluster_id (api w); lock := l |};
     instance_metadata := instance_metadata w;
     metadata_requests := metadata_requests w |}.

(** State and exceptions. *)
Definition M (A : Type) : Type := World → outcome A * World.

#[global] Instance M_ret : MRet M := λ A a w, (Returned a, w).
#[global] Instance M_bind : MBind M := λ A B f m w,
  match m w with
  | (Returned a, w') => f a w'
  | (Raised e, w') => (Raised e, w')
  end.

Definition raise {A} (e : exn) : M A := λ w, (Raised e, w).

(** Evaluates the elements of a display or an argument list left to right. *)
Fixpoint eval_all {A} (ms : list (M A)) : M (list A) :=
  match ms with
  | [] => mret []
  | m :: rest => a ← m; l ← eval_all rest; mret (a :: l)
  end.

(** ** The library calls the module makes *)

(** [bitmath]: a quantity is kept as its number of bytes.  The one quantity
    the module converts is 8 GiB = 2^33 bytes, which [value]'s float holds
    exactly, so [int] drops nothing. *)
Record Bitmath := mkBitmath { bytes : Z }.
Definition GiB (v : Z) : Bitmath := {| bytes := v * 2 ^ 30 |}.
Definition to_Byte (b : Bitmath) : Bitmath := b.
Definition value (b : Bitmath) : Z := bytes b.
Definition int_ (v : Z) : Z := v.

(** [unicode(x)] of a text that is unicode already. *)
Definition unicode (s : string) : string := s.

(** [s.replace(pat, '')] for a non-empty [pat]; [skip] characters of a
    match found are still to be dropped. *)
Fixpoint remove_all (pat : string) (skip : nat) (s : string) : string :=
  match s with
  | EmptyString => EmptyString
  | String c s' =>
      match skip with
      | S k => remove_all pat k s'
      | O => if String.prefix pat s
             then remove_all pat (Nat.pred (String.length pat)) s'
             else String c (remove_all pat 0 s')
      end
  end.

Definition is_brace (c : ascii) : bool :=
  orb (Ascii.eqb c "{"%char) (Ascii.eqb c "}"%char).

Fixpoint lstrip_braces (s : string) : string :=
  match s with
  | String c s' => if is_brace c then lstrip_braces s' else s
  | EmptyString => EmptyString
  end.

(** [s.strip('{}')]. *)
Definition strip_braces (s : string) : string :=
  String.rev (lstrip_braces (String.rev (lstrip_braces s))).

Definition hex_digit (c : ascii) : option N :=
  let n := N_of_ascii c in
  if ((48 <=? n) && (n <=? 57))%N then Some (n - 48)%N
  else if ((97 <=? n) && (n <=? 102))%N then Some (n - 87)%N
  else if ((65 <=? n) && (n <=? 70))%N then Some (n - 55)%N
  else None.

(** The value of a string of hexadecimal digits, [acc] being the value of
    the digits read before it. *)
Fixpoint long16 (acc : N) (s : string) : option N :=
  match s with
  | EmptyString => Some acc
  | String c s' =>
      match hex_digit c with
      | Some d => long16 (16 * acc + d)%N s'
      | None => None
      end
  end.

(** C's [isspace]: blank, tab, line feed, vertical tab, form feed,
    carriage return. *)
Definition is_space (c : ascii) : bool :=
  let n := N_of_ascii c in
  ((n =? 32) || ((9 <=? n) && (n <=? 13)))%N.

Fixpoint lstrip_spaces (s : string) : string :=
  match s with
  | String c s' => if is_space c then lstrip_spaces s' else s
  | EmptyString => EmptyString
  end.

(** One leading sign: whether it is a minus, and what follows it. *)
Definition split_sign (s : string) : bool * string :=
  match s with
  | String c s' =>
      if Ascii.eqb c "+"%char then (false, s')
      else if Ascii.eqb c "-"%char then (true, s')
      else (false, s)
  | EmptyString => (false, s)
  end.

(** A leading [0x] or [0X], which base 16 allows. *)
Definition skip_0x (s : string) : string :=
  match s with
  | String c (String x s') =>
      if Ascii.eqb c "0"%char
         && (Ascii.eqb x "x"%char || Ascii.eqb x "X"%char)
      then s' else s
  | _ => s
  end.

(** The hexadecimal digits at the head of [s]: their value on top of
    [acc], their number on top of [count], and what follows them. *)
Fixpoint hex_run (acc : N) (count : nat) (s : string) : N * nat * string :=
  match s with
  | EmptyString => (acc, count, EmptyString)
  | String c s' =>
      match hex_digit c with
      | Some d => hex_run (16 * acc + d)%N (S count) s'
      | None => (acc, count, s)
      end
  end.

(** One [L] or [l] after the digits. *)
Definition skip_L (s : string) : string :=
  match s with
  | String c s' =>
      if Ascii.eqb c "L"%char || Ascii.eqb c "l"%char then s' else s
  | EmptyString => s
  end.

(** [long(s, 16)] of Python 2 on a byte string: blanks, a sign, blanks,
    an optional [0x], at least one hexadecimal digit, an optional [L],
    blanks, and nothing more; [None] where Python raises [ValueError]. *)
Definition long_base16 (s : string) : option Z :=
  let '(negative, s) := split_sign (lstrip_spaces s) in
  let s := skip_0x (lstrip_spaces s) in
  let '(n, count, rest) := hex_run 0 0 s in
  if (count =? 0)%nat then None
  else match lstrip_spaces (skip_L rest) with
       | EmptyString => Some (if negative : bool then - Z.of_N n else Z.of_N n)
       | String _ _ => None
       end.

(** [uuid.UUID(hex)], lines of [uuid.py] for the [hex] argument: the
    prefixes, braces and hyphens are dropped, 32 characters must remain,
    [long(hex, 16)] reads them, and the number must fit 128 bits. *)
Definition UUID_parse (hex : string) : outcome UUID :=
  let hex := remove_all "uuid:" 0 (remove_all "urn:" 0 hex) in
  let hex := remove_all "-" 0 (strip_braces hex) in
  if negb (String.length hex =? 32)%nat
  then Raised (ValueError "badly formed hexadecimal UUID string")
  else match long_base16 hex with
       | Some int =>
           if (0 <=? int) && (int <? 2 ^ 128)
           then Returned (mkUUID (Z.to_N int))
           else Raised (ValueError "int is out of range (need a 128-bit value)")
       | None =>
           Raised (ValueError "invalid literal for long() with base 16")
       end.

Definition UUID_ (hex : string) : M UUID := λ w, (UUID_parse hex, w).
Arguments UUID_ : simpl never.

Definition hex_char (d : N) : ascii :=
  if (d <? 10)%N then ascii_of_N (48 + d) else ascii_of_N (87 + d).

(** The [k] lowest hexadecimal digits of [n], highest first. *)
Fixpoint hex_digits (k : nat) (n : N) (acc : string) : string :=
  match k with
  | O => acc
  | S k' => hex_digits k' (n / 16)%N (String (hex_char (n mod 16)%N) acc)
  end.

(** [unicode(u)] of a UUID: 8-4-4-4-12 lower-case hexadecimal digits. *)
Definition unicode_UUID (u : UUID) : string :=
  let h := hex_digits 32 (int u) "" in
  substring 0 8 h ++ "-" ++ substring 8 4 h ++ "-" ++ substring 12 4 h
  ++ "-" ++ substring 16 4 h ++ "-" ++ substring 20 12 h.

#[global] Instance UUID_eq_dec : EqDecision UUID.
Proof. solve_decision. Defined.

(** The world after one request to the metadata service. *)
Definition after_request (w : World) : World :=
  {| api := api w;
     instance_metadata := instance_metadata w;
     metadata_requests := S (metadata_requests w) |}.

(** [boto.utils.get_instance_metadata()]: one request to the metadata
    service. *)
Definition get_instance_metadata : M (gmap string string) := λ w,
  (Returned (instance_metadata w), after_request w).

(** [d[key]]. *)
Definition getitem (d : gmap string string) (key : string) : M string :=
  match d !! key with
  | Some v => mret v
  | None => raise (KeyError key)
  end.

Fixpoint all_ascii (s : string) : bool :=
  match s with
  | EmptyString => true
  | String c s' => (N_of_ascii c <? 128)%N && all_ascii s'
  end.

(** [s.decode("ascii")]. *)
Definition decode_ascii (s : string) : M string :=
  if all_ascii s then mret s else raise UnicodeDecodeError.

(** [self.cluster_id]. *)
Definition self_cluster_id : M UUID := λ w, (Returned (cluster_id (api w)), w).

(** ** The names of the module

    What the top-level statements of [cio.py] bind, in their order: the
    imports of lines 5-23, the three labels, and the classes and functions
    the file defines. *)

Definition DATASET_ID_LABEL : string := "flocker-dataset-id".
Definition METADATA_VERSION_LABEL : string := "flocker-metadata-version".
Definition CLUSTER_ID_LABEL : string := "flocker-cluster-id".

Definition blockdevice : string := "flocker.node.agents.blockdevice".

Definition module_globals : gmap string pyobj :=
  list_to_map [
    ("check_output", PyImport "subprocess" "check_output");
    ("threading", PyImport "threading" "");
    ("time", PyImport "time" "");
    ("logging", PyImport "logging" "");
    ("UUID", PyImport "uuid" "UUID");
    ("Byte", PyImport "bitmath" "Byte");
    ("GiB", PyImport "bitmath" "GiB");
    ("get_instance_metadata", PyImport "boto.utils" "get_instance_metadata");
    ("PRecord", PyImport "pyrsistent" "PRecord");
    ("field", PyImport "pyrsistent" "field");
    ("pset", PyImport "pyrsistent" "pset");
    ("pmap", PyImport "pyrsistent" "pmap");
    ("implementer", PyImport "zope.interface" "implementer");
    ("FilePath", PyImport "twisted.python.filepath" "FilePath");
    ("Message", PyImport "eliot" "Message");
    ("IBlockDeviceAPI", PyImport blockdevice "IBlockDeviceAPI");
    ("BlockDeviceVolume", PyImport blockdevice "BlockDeviceVolume");
    ("UnknownVolume", PyImport blockdevice "UnknownVolume");
    ("AlreadyAttachedVolume", PyImport blockdevice "AlreadyAttachedVolume");
    ("UnattachedVolume", PyImport blockdevice "UnattachedVolume");
    ("DATASET_ID_LABEL", PyUnicode DATASET_ID_LABEL);
    ("METADATA_VERSION_LABEL", PyUnicode METADATA_VERSION_LABEL);
    ("CLUSTER_ID_LABEL", PyUnicode CLUSTER_ID_LABEL);
    ("EliotLogHandler", PyClass "EliotLogHandler");
    ("AttachedUnexpectedDevice", PyClass "AttachedUnexpectedDevice");
    ("cio_client", PyFunction "cio_client");
    ("_blockdevicevolume_from_cio_volume",
     PyFunction "_blockdevicevolume_from_cio_volume");
    ("_is_cluster_volume", PyFunction "_is_cluster_volume");
    ("CIOBlockDeviceAPI", PyClass "CIOBlockDeviceAPI")
  ].

(** The built-in names the module uses. *)
Definition builtins : list string :=
  ["unicode"; "int"; "object"; "vars"; "Exception"].

(** A name that no statement of the enclosing function assigns is looked up
    in the module's names, then in the built-in ones. *)
Definition LOAD_GLOBAL (name : string) : M pyobj :=
  match module_globals !! name with
  | Some o => mret o
  | None => if bool_decide (name ∈ builtins)
            then mret (PyFunction name)
            else raise (NameError name)
  end.

(** The uses the functions make of an object they looked up by name. *)
Definition as_volume (o : pyobj) : M CIOVolume.t :=
  match o with
  | PyVolume v => mret v
  | _ => raise (AttributeError "id")
  end.

Definition as_blockdevicevolume (o : pyobj) : M BlockDeviceVolume.t :=
  match o with
  | PyBlockDeviceVolume v => mret v
  | _ => raise (TypeError "not a BlockDeviceVolume")
  end.

Definition iter (o : pyobj) : M (list pyobj) :=
  match o with
  | PyList l => mret l
  | _ => raise (TypeError "object is not iterable")
  end.

Definition call_with_path (f : pyobj) (device : option string) : M string :=
  raise (TypeError "object is not callable").

(** ** Module-level functions *)

(** [cio_client], lines 68-78: a bare [return]. *)
Definition cio_client (region zone access_key_id secret_access_key : string)
  : M pyobj := mret PyNone.

(** [_blockdevicevolume_from_cio_volume], lines 81-95.  The keyword
    arguments are evaluated in the order written: [cio_volume.id], then
    [ebs_volume.size], a name the function does not bind. *)
Definition _blockdevicevolume_from_cio_volume (cio_volume : CIOVolume.t)
  : M BlockDeviceVolume.t :=
  let blockdevice_id := unicode (CIOVolume.id cio_volume) in
  ebs_volume ← LOAD_GLOBAL "ebs_volume" ≫= as_volume;
  let size := int_ (value (to_Byte (GiB (CIOVolume.size ebs_volume)))) in
  let attached_to :=
    AttachData.instance_id (CIOVolume.attach_data cio_volume) in
  tag ← getitem (CIOVolume.tags cio_volume) DATASET_ID_LABEL;
  dataset_id ← UUID_ tag;
  mret (BlockDeviceVolume.mk blockdevice_id size attached_to dataset_id).

(** [_is_cluster_volume], lines 98-116. *)
Definition _is_cluster_volume (cluster_id : UUID) (cio_volume : CIOVolume.t)
  : M bool :=
  let actual_cluster_id := CIOVolume.tags cio_volume !! CLUSTER_ID_LABEL in
  match actual_cluster_id with
  | Some s =>
      actual_cluster_id ← UUID_ s;
      if bool_decide (actual_cluster_id = cluster_id)
      then mret true
      else mret false
  | None => mret false
  end.

(** ** The methods of [CIOBlockDeviceAPI] *)

(** [__init__], lines 125-133. *)
Definition __init__ (cluster_id : UUID) : CIOBlockDeviceAPI :=
  {| cluster_id := cluster_id; lock := mkLock false |}.

(** [allocation_unit], lines 135-140. *)
Definition allocation_unit : M Z :=
  mret (int_ (value (to_Byte (GiB 8)))).

(** [compute_instance_id], lines 142-149. *)
Definition compute_instance_id : M string :=
  metadata ← get_instance_metadata;
  instance_id ← getitem metadata "instance-id";
  decode_ascii instance_id.

(** The [for] loop of [_get_cio_volume], lines 168-171, with the [raise]
    that follows it. *)
Fixpoint _get_cio_volume_loop (all_volumes : list pyobj)
    (blockdevice_id : string) : M CIOVolume.t :=
  match all_volumes with
  | [] => raise (UnknownVolume blockdevice_id)
  | o :: rest =>
      volume ← as_volume o;
      if bool_decide (CIOVolume.id volume = blockdevice_id)
      then mret volume
      else _get_cio_volume_loop rest blockdevice_id
  end.

(** [_get_cio_volume], lines 151-171.  The assignment of [all_volumes] is
    a comment (lines 163-164); the loop reads the name all the same. *)
Definition _get_cio_volume (blockdevice_id : string) : M CIOVolume.t :=
  all_volumes ← LOAD_GLOBAL "all_volumes" ≫= iter;
  _get_cio_volume_loop all_volumes blockdevice_id.

(** The list display of lines 195-196.  Its fifth element is the text
    [2b"--bytes"], which is no expression.  Python refuses it when it
    compiles the file, before any call ([import_module] below); with the
    body read on its own, the refusal stands where the text stands. *)
Definition create_volume_command (size : Z) : M (list pyobj) :=
  eval_all [
    mret (PyBytes "/usr/bin/cio");
    mret (PyBytes "-c");
    mret (PyInt size);
    mret (PyBytes "-l");
    raise (SyntaxError 195);
    mret (PyBytes "--output");
    mret (PyBytes "SIZE");
    LOAD_GLOBAL "device_name"
  ].

(** The dict display of lines 199-203. *)
Definition create_volume_metadata (cluster_id dataset_id : UUID)
  : gmap string string :=
  <[DATASET_ID_LABEL := unicode_UUID dataset_id]>
    (<[CLUSTER_ID_LABEL := unicode_UUID cluster_id]>
       (<[METADATA_VERSION_LABEL := "1"]> ∅)).

(** [create_volume], lines 174-211. *)
Definition create_volume (dataset_id : UUID) (size : Z)
  : M BlockDeviceVolume.t :=
  let redundancy := 2 in
  let min_iops := 1000 in
  let max_iops := 2000 in
  command ← create_volume_command size;
  cluster_id ← self_cluster_id;
  let metadata := create_volume_metadata cluster_id dataset_id in
  requested_volume ← LOAD_GLOBAL "requested_volume" ≫= as_volume;
  _blockdevicevolume_from_cio_volume requested_volume.

(** [list_volumes], lines 213-225. *)
Definition list_volumes : M (list BlockDeviceVolume.t) :=
  let volumes := [] in
  cluster_id ← self_cluster_id;
  cio_volume ← LOAD_GLOBAL "cio_volume" ≫= as_volume;
  is_member ← _is_cluster_volume cluster_id cio_volume;
  if is_member : bool
  then
    cio_volume ← LOAD_GLOBAL "cio_volume" ≫= as_volume;
    volume ← _blockdevicevolume_from_cio_volume cio_volume;
    mret (volumes ++ [volume])%list
  else mret volumes.

(** [attach_volume], lines 227-263. *)
Definition attach_volume (blockdevice_id attach_to : string)
  : M BlockDeviceVolume.t :=
  cio_volume ← _get_cio_volume blockdevice_id;
  volume ← _blockdevicevolume_from_cio_volume cio_volume;
  LOAD_GLOBAL "attached_volume" ≫= as_blockdevicevolume.

(** [detach_volume], lines 265-285. *)
Definition detach_volume (blockdevice_id : string) : M unit :=
  cio_volume ← _get_cio_volume blockdevice_id;
  mret tt.

(** [destroy_volume], lines 287-305. *)
Definition destroy_volume (blockdevice_id : string) : M unit :=
  cio_volume ← _get_cio_volume blockdevice_id;
  mret tt.

(** [get_device_path] from line 321 on, for the volume that line 320
    found. *)
Definition get_device_path_of (blockdevice_id : string)
    (cio_volume : CIOVolume.t) : M string :=
  volume ← _blockdevicevolume_from_cio_volume cio_volume;
  match BlockDeviceVolume.attached_to volume with
  | None => raise (UnattachedVolume blockdevice_id)
  | Some attached_to =>
      compute_instance_id ← compute_instance_id;
      if bool_decide (attached_to ≠ compute_instance_id)
      then raise (Exception ("Volume is attached to " ++ attached_to
                             ++ ", not to " ++ compute_instance_id))
      else
        _expected_device ← LOAD_GLOBAL "_expected_device";
        call_with_path _expected_device
          (AttachData.device (CIOVolume.attach_data cio_volume))
  end.

(** [get_device_path], lines 307-334. *)
Definition get_device_path (blockdevice_id : string) : M string :=
  cio_volume ← _get_cio_volume blockdevice_id;
  get_device_path_of blockdevice_id cio_volume.

(** ** Calls on the adapter

    One constructor per method that [class CIOBlockDeviceAPI] defines after
    [__init__], with the arguments of the call. *)
Inductive call :=
| Call_allocation_unit
| Call_compute_instance_id
| Call__get_cio_volume (blockdevice_id : string)
| Call_create_volume (dataset_id : UUID) (size : Z)
| Call_list_volumes
| Call_attach_volume (blockdevice_id attach_to : string)
| Call_detach_volume (blockdevice_id : string)
| Call_destroy_volume (blockdevice_id : string)
| Call_get_device_path (blockdevice_id : string).

Definition method_name (c : call) : string :=
  match c with
  | Call_allocation_unit => "allocation_unit"
  | Call_compute_instance_id => "compute_instance_id"
  | Call__get_cio_volume _ => "_get_cio_volume"
  | Call_create_volume _ _ => "create_volume"
  | Call_list_volumes => "list_volumes"
  | Call_attach_volume _ _ => "attach_volume"
  | Call_detach_volume _ => "detach_volume"
  | Call_destroy_volume _ => "destroy_volume"
  | Call_get_device_path _ => "get_device_path"
  end.

(** Runs the method and hands back what it returns as a Python object. *)
Definition run (c : call) : M pyobj :=
  match c with
  | Call_allocation_unit => n ← allocation_unit; mret (PyInt n)
  | Call_compute_instance_id => s ← compute_instance_id; mret (PyUnicode s)
  | Call__get_cio_volume i => v ← _get_cio_volume i; mret (PyVolume v)
  | Call_create_volume d s =>
      v ← create_volume d s; mret (PyBlockDeviceVolume v)
  | Call_list_volumes =>
      l ← list_volumes; mret (PyList (PyBlockDeviceVolume <$> l))
  | Call_attach_volume i a =>
      v ← attach_volume i a; mret (PyBlockDeviceVolume v)
  | Call_detach_volume i => _ ← detach_volume i; mret PyNone
  | Call_destroy_volume i => _ ← destroy_volume i; mret PyNone
  | Call_get_device_path i => p ← get_device_path i; mret (PyFilePath p)
  end.

(** The [def]s of the class body, lines 125-334, in their order. *)
Definition class_body : list string :=
  ["__init__"; "allocation_unit"; "compute_instance_id"; "_get_cio_volume";
   "create_volume"; "list_volumes"; "attach_volume"; "detach_volume";
   "destroy_volume"; "get_device_path"].

(** A name is public when it has no leading underscore. *)
Definition public (name : string) : bool := negb (String.prefix "_" name).

Definition public_operations : list string :=
  filter (λ n, public n = true) class_body.

(** The operations as the specification's overview lists them: allocate,
    create, list, attach, detach, destroy, get-device-path. *)
Definition spec_named_operations : list string :=
  ["allocation_unit"; "create_volume"; "list_volumes"; "attach_volume";
   "detach_volume"; "destroy_volume"; "get_device_path"].

(** ** Sample data *)

Definition sample_cluster_id : UUID :=
  mkUUID 24197857161011715162171839636988778104%N.

Definition sample_dataset_id : UUID := mkUUID 1%N.

Definition sample_world : World :=
  {| api := __init__ sample_cluster_id;
     instance_metadata := <["instance-id" := "i-0abc"]> ∅;
     metadata_requests := 0 |}.

(** A volume of the sample cluster, attached to no instance. *)
Definition sample_volume : CIOVolume.t :=
  CIOVolume.mk "vol-1" 8 (AttachData.mk None None)
    (<[DATASET_ID_LABEL := "00000000-0000-0000-0000-000000000001"]>
       (<[CLUSTER_ID_LABEL := "12345678-1234-5678-1234-567812345678"]> ∅)).

(** A volume tagged for another cluster, and one with no tags. *)
Definition foreign_volume : CIOVolume.t :=
  CIOVolume.mk "vol-2" 8 (AttachData.mk None None)
    (<[CLUSTER_ID_LABEL := "00000000-0000-0000-0000-0000000000ff"]> ∅).

Definition untagged_volume : CIOVolume.t :=
  CIOVolume.mk "vol-3" 8 (AttachData.mk None None) ∅.

(** ** [EliotLogHandler], lines 29-39 *)

(** The class attribute [_to_log], a set of three strings. *)
Definition _to_log : list string := ["Method"; "Path"; "Params"].

(** [s.split(":")[0]]: the text before the first colon, all of [s] when it
    has none. *)
Fixpoint before_colon (s : string) : string :=
  match s with
  | EmptyString => EmptyString
  | String c s' =>
      if Ascii.eqb c ":"%char then EmptyString
      else String c (before_colon s')
  end.

(** [fields.get("msg", ":")], as the receiver of [.split]: a string has the
    method, another object has not. *)
Definition msg_of (fields : gmap string pyobj) : M string :=
  match fields !! "msg" with
  | None => mret ":"
  | Some (PyUnicode s) | Some (PyBytes s) => mret s
  | Some _ => raise (AttributeError "split")
  end.

(** [EliotLogHandler.emit], lines 32-39.  [record] stands for
    [vars(record)].  The value is the list of messages handed to Eliot
    ([Message.new(...).write()]); the method itself returns [None].  The
    keyword argument [message_type] is evaluated before [**fields] is
    merged in. *)
Definition emit (record : gmap string pyobj)
  : M (list (gmap string pyobj)) :=
  let fields := record in
  msg ← msg_of fields;
  if bool_decide (before_colon msg ∈ _to_log)
  then
    message_type ← LOAD_GLOBAL "BOTO_LOG_HEADER";
    if bool_decide (is_Some (fields !! "message_type"))
    then raise (TypeError "got multiple values for keyword argument")
    else mret [<["message_type" := message_type]> fields]
  else mret [].

(** ** [AttachedUnexpectedDevice], lines 42-65 *)

Definition single_quote : ascii := "'"%char.
Definition double_quote : ascii := ascii_of_nat 34.
Definition backslash : ascii := ascii_of_nat 92.

Fixpoint contains_char (a : ascii) (s : string) : bool :=
  match s with
  | EmptyString => false
  | String c s' => Ascii.eqb c a || contains_char a s'
  end.

(** The quote [repr] puts around a byte string: a single quote, unless the
    string has one and has no double quote. *)
Definition repr_quote (s : string) : ascii :=
  if contains_char single_quote s && negb (contains_char double_quote s)
  then double_quote else single_quote.

(** [repr] of one character inside the quote [q]. *)
Definition repr_char (q c : ascii) : string :=
  let n := N_of_ascii c in
  if Ascii.eqb c q || Ascii.eqb c backslash
  then String backslash (String c EmptyString)
  else if (n =? 9)%N then String backslash "t"
  else if (n =? 10)%N then String backslash "n"
  else if (n =? 13)%N then String backslash "r"
  else if ((n <? 32) || (127 <=? n))%N
  then String backslash
         (String "x" (hex_digits 2 n EmptyString))
  else String c EmptyString.

Fixpoint repr_body (q : ascii) (s : string) : string :=
  match s with
  | EmptyString => EmptyString
  | String c s' => repr_char q c ++ repr_body q s'
  end.

(** [repr(s)] of a Python 2 byte string, what [{!r}] formats. *)
Definition repr (s : string) : string :=
  let q := repr_quote s in
  String q (repr_body q s ++ String q EmptyString).

(** [AttachedUnexpectedDevice.__str__], lines 60-63, on the [path]s of the
    two [FilePath]s that [__init__] stored. *)
Definition AttachedUnexpectedDevice__str__ (requested discovered : string)
  : string :=
  "AttachedUnexpectedDevice(requested=" ++ repr requested
  ++ ", discovered=" ++ repr discovered ++ ")".

(** Line 65: [__repr__ = __str__]. *)
Definition AttachedUnexpectedDevice__repr__ :=
  AttachedUnexpectedDevice__str__.

(** A character that [repr] leaves as it is inside single quotes. *)
Definition plain_char (c : ascii) : bool :=
  let n := N_of_ascii c in
  ((32 <=? n) && (n <? 127))%N
  && negb (Ascii.eqb c single_quote) && negb (Ascii.eqb c backslash).

Fixpoint string_forall (P : ascii → bool) (s : string) : bool :=
  match s with
  | EmptyString => true
  | String c s' => P c && string_forall P s'
  end.

(** ** Parts of method bodies *)

(** [get_device_path] from line 322 on: the checks on the converted
    [volume], and the call of line 334. *)
Definition get_device_path_checks (blockdevice_id : string)
    (cio_volume : CIOVolume.t) (volume : BlockDeviceVolume.t) : M string :=
  match BlockDeviceVolume.attached_to volume with
  | None => raise (UnattachedVolume blockdevice_id)
  | Some attached_to =>
      compute_instance_id ← compute_instance_id;
      if bool_decide (attached_to ≠ compute_instance_id)
      then raise (Exception ("Volume is attached to " ++ attached_to
                             ++ ", not to " ++ compute_instance_id))
      else
        _expected_device ← LOAD_GLOBAL "_expected_device";
        call_with_path _expected_device
          (AttachData.device (CIOVolume.attach_data cio_volume))
  end.

(** ** Calls one after another

    A client that makes the calls of [cs] in turn, catching what each
    raises: the outcomes in order, and the world it ends in. *)
Fixpoint run_calls (cs : list call) (w : World)
  : list (outcome pyobj) * World :=
  match cs with
  | [] => ([], w)
  | c :: rest =>
      let '(o, w') := run c w in
      let '(os, w'') := run_calls rest w' in
      (o :: os, w'')
  end.

Definition is_compute_instance_id (c : call) : bool :=
  match c with Call_compute_instance_id => true | _ => false end.

(** The hexadecimal digits [unicode_UUID] writes. *)
Definition hexlow (c : ascii) : bool :=
  let n := N_of_ascii c in
  (((48 <=? n) && (n <=? 57)) || ((97 <=? n) && (n <=? 102)))%N.

(** [h] with hyphens after its 8th, 12th, 16th and 20th character. *)
Definition hyphenate (h : string) : string :=
  substring 0 8 h ++ "-" ++ substring 8 4 h ++ "-" ++ substring 12 4 h
  ++ "-" ++ substring 16 4 h ++ "-" ++ substring 20 12 h.

(** [s] without the characters equal to [a]. *)
Fixpoint without_char (a : ascii) (s : string) : string :=
  match s with
  | EmptyString => EmptyString
  | String c s' =>
      if Ascii.eqb c a then without_char a s'
      else String c (without_char a s')
  end.

(** The sample volume under another identifier, attached, with one tag
    more. *)
Definition sample_volume_attached : CIOVolume.t :=
  CIOVolume.mk "vol-9" 16 (AttachData.mk (Some "i-0abc") (Some "/dev/sdf"))
    (<["Name" := "data"]> (CIOVolume.tags sample_volume)).

(** A volume with the tags of lines 199-203 for the sample ids. *)
Definition stamped_volume : CIOVolume.t :=
  CIOVolume.mk "vol-4" 8 (AttachData.mk None None)
    (create_volume_metadata sample_cluster_id sample_dataset_id).

(** ** [_is_cluster_volume] over the library's [UUID]

    Lines 98-116 once more, with the constructor [UUID] of the [uuid]
    library, which is no code of this module, as a parameter: what the
    function does with whatever [UUID] answers. *)
Section ClusterCheck.

Variable UUID_of : string → M UUID.

Definition _is_cluster_volume_with (cluster_id : UUID)
    (cio_volume : CIOVolume.t) : M bool :=
  let actual_cluster_id := CIOVolume.tags cio_volume !! CLUSTER_ID_LABEL in
  match actual_cluster_id with
  | Some s =>
      actual_cluster_id ← UUID_of s;
      if bool_decide (actual_cluster_id = cluster_id)
      then mret true
      else mret false
  | None => mret false
  end.

End ClusterCheck.

(** ** The file as shipped

    Python compiles a file whole before it runs any of it.  Two lines of
    [cio.py] are no Python: line 186 (bytes that are no ASCII, in a
    comment, in a file with no coding line: Python 2 refuses them) and
    line 195 (the text [2b"--bytes"]). *)
Definition refused_lines : list nat := [186%nat; 195%nat].

(** [import cio]: a [SyntaxError] at the first refused line, and then no
    [def] of the file is bound. *)
Definition import_module : outcome unit :=
  match refused_lines with
  | [] => Returned tt
  | line :: _ => Raised (SyntaxError line)
  end.

(** A call of a method of the module as shipped: the import comes first. *)
Definition run_as_shipped (c : call) : M pyobj := λ w,
  match import_module with
  | Returned _ => run c w
  | Raised e => (Raised e, w)
  end.

(** The two named errors for which the file has no [raise] statement
    outside a comment. *)
Definition raises_commented_error {A} (o : outcome A) : bool :=
  match o with
  | Raised (AlreadyAttachedVolume _) | Raised (AttachedUnexpectedDevice _ _) =>
      true
  | _ => false
  end.

(** ** Summaries used in the statements *)

Definition is_ValueError (e : exn) : bool :=
  match e with ValueError _ => true | _ => false end.

(** The name is bound neither by the module nor as a built-in: reading it
    raises [NameError] and changes nothing. *)
Definition unbound (name : string) : Prop :=
  ∀ w, LOAD_GLOBAL name w = (Raised (NameError name), w).

(** What a call gives, method by method. *)
Definition run_outcome (c : call) (w : World) : outcome pyobj :=
  match c with
  | Call_allocation_unit => Returned (PyInt 8589934592)
  | Call_compute_instance_id =>
      match instance_metadata w !! "instance-id" with
      | None => Raised (KeyError "instance-id")
      | Some s =>
          if all_ascii s then Returned (PyUnicode s)
          else Raised UnicodeDecodeError
      end
  | Call_create_volume _ _ => Raised (SyntaxError 195)
  | Call_list_volumes => Raised (NameError "cio_volume")
  | _ => Raised (NameError "all_volumes")
  end.

Definition run_world (c : call) (w : World) : World :=
  match c with
  | Call_compute_instance_id => after_request w
  | _ => w
  end.

(** * Properties *)

(** ** The monad *)

Lemma bind_raised {A B} (m : M A) (f : A → M B) e w w' :
  m w = (Raised e, w') → (m ≫= f) w = (Raised e, w').
Proof. intros H. unfold mbind, M_bind. now rewrite H. Qed.

Lemma bind_returned {A B} (m : M A) (f : A → M B) a w w' :
  m w = (Returned a, w') → (m ≫= f) w = f a w'.
Proof. intros H. unfold mbind, M_bind. now rewrite H. Qed.

(** ** Names that nothing binds *)

Lemma unbound_ebs_volume : unbound "ebs_volume".
Proof. intros w. reflexivity. Qed.

Lemma unbound_all_volumes : unbound "all_volumes".
Proof. intros w. reflexivity. Qed.

Lemma unbound_device_name : unbound "device_name".
Proof. intros w. reflexivity. Qed.

Lemma unbound_requested_volume : unbound "requested_volume".
Proof. intros w. reflexivity. Qed.

Lemma unbound_cio_volume : unbound "cio_volume".
Proof. intros w. reflexivity. Qed.

Lemma unbound_attached_volume : unbound "attached_volume".
Proof. intros w. reflexivity. Qed.

Lemma unbound_expected_device : unbound "_expected_device".
Proof. intros w. reflexivity. Qed.

(** Every name that the bodies use and the module does bind is found. *)
Lemma bound_names :
  Forall (λ n, is_Some (module_globals !! n))
    ["UUID"; "GiB"; "get_instance_metadata"; "BlockDeviceVolume";
     "UnknownVolume"; "UnattachedVolume"; "DATASET_ID_LABEL";
     "METADATA_VERSION_LABEL"; "CLUSTER_ID_LABEL";
     "_blockdevicevolume_from_cio_volume"; "_is_cluster_volume"].
Proof. repeat constructor; vm_compute; eauto. Qed.

(** ** Where each function stops *)

Lemma blockdevicevolume_from_cio_volume_stops cio_volume w :
  _blockdevicevolume_from_cio_volume cio_volume w
  = (Raised (NameError "ebs_volume"), w).
Proof.
  unfold _blockdevicevolume_from_cio_volume.
  apply bind_raised, bind_raised, unbound_ebs_volume.
Qed.

Lemma get_cio_volume_stops blockdevice_id w :
  _get_cio_volume blockdevice_id w = (Raised (NameError "all_volumes"), w).
Proof.
  unfold _get_cio_volume. apply bind_raised, bind_raised, unbound_all_volumes.
Qed.

Lemma create_volume_command_stops size w :
  create_volume_command size w = (Raised (SyntaxError 195), w).
Proof. reflexivity. Qed.

Lemma create_volume_stops dataset_id size w :
  create_volume dataset_id size w = (Raised (SyntaxError 195), w).
Proof.
  unfold create_volume. apply bind_raised, create_volume_command_stops.
Qed.

Lemma list_volumes_stops w :
  list_volumes w = (Raised (NameError "cio_volume"), w).
Proof.
  unfold list_volumes.
  erewrite bind_returned by reflexivity.
  apply bind_raised, bind_raised, unbound_cio_volume.
Qed.

Lemma attach_volume_stops blockdevice_id attach_to w :
  attach_volume blockdevice_id attach_to w
  = (Raised (NameError "all_volumes"), w).
Proof. unfold attach_volume. apply bind_raised, get_cio_volume_stops. Qed.

Lemma detach_volume_stops blockdevice_id w :
  detach_volume blockdevice_id w = (Raised (NameError "all_volumes"), w).
Proof. unfold detach_volume. apply bind_raised, get_cio_volume_stops. Qed.

Lemma destroy_volume_stops blockdevice_id w :
  destroy_volume blockdevice_id w = (Raised (NameError "all_volumes"), w).
Proof. unfold destroy_volume. apply bind_raised, get_cio_volume_stops. Qed.

Lemma get_device_path_of_stops blockdevice_id cio_volume w :
  get_device_path_of blockdevice_id cio_volume w
  = (Raised (NameError "ebs_volume"), w).
Proof.
  unfold get_device_path_of.
  apply bind_raised, blockdevicevolume_from_cio_volume_stops.
Qed.

Lemma get_device_path_stops blockdevice_id w :
  get_device_path blockdevice_id w = (Raised (NameError "all_volumes"), w).
Proof. unfold get_device_path. apply bind_raised, get_cio_volume_stops. Qed.

Lemma allocation_unit_value w :
  allocation_unit w = (Returned 8589934592, w).
Proof. reflexivity. Qed.

(** [compute_instance_id] makes one request and answers by what the
    metadata holds under ["instance-id"]. *)
Lemma compute_instance_id_cases w :
  compute_instance_id w =
  (match instance_metadata w !! "instance-id" with
   | None => Raised (KeyError "instance-id")
   | Some s => if all_ascii s then Returned s else Raised UnicodeDecodeError
   end, after_request w).
Proof.
  unfold compute_instance_id.
  erewrite bind_returned by reflexivity.
  unfold getitem.
  destruct (instance_metadata w !! "instance-id") as [s|] eqn:E.
  - erewrite bind_returned by reflexivity.
    unfold decode_ascii. now destruct (all_ascii s).
  - now apply bind_raised.
Qed.

Lemma run_cases c w : run c w = (run_outcome c w, run_world c w).
Proof.
  destruct c; unfold run; cbn [run_outcome run_world].
  - reflexivity.
  - unfold mbind, M_bind. rewrite compute_instance_id_cases.
    destruct (instance_metadata w !! "instance-id") as [s|]; [|reflexivity].
    now destruct (all_ascii s).
  - apply bind_raised, get_cio_volume_stops.
  - apply bind_raised, create_volume_stops.
  - apply bind_raised, list_volumes_stops.
  - apply bind_raised, attach_volume_stops.
  - apply bind_raised, detach_volume_stops.
  - apply bind_raised, destroy_volume_stops.
  - apply bind_raised, get_device_path_stops.
Qed.

(** ** The library models *)

Lemma UUID_pure hex w : snd (UUID_ hex w) = w.
Proof. reflexivity. Qed.

Lemma UUID_parse_raises hex e :
  UUID_parse hex = Raised e → ∃ msg, e = ValueError msg.
Proof.
  unfold UUID_parse.
  destruct (negb _); [intros [= <-]; eauto|].
  destruct (long_base16 _) as [z|]; [|intros [= <-]; eauto].
  destruct (_ && _); [discriminate|intros [= <-]; eauto].
Qed.

Lemma UUID_no_named_error hex w :
  raises_named_error (fst (UUID_ hex w)) = false.
Proof.
  unfold UUID_; cbn [fst]. destruct (UUID_parse hex) as [u|e] eqn:E; [reflexivity|].
  now destruct (UUID_parse_raises hex e E) as [msg ->].
Qed.

Lemma is_cluster_volume_pure cluster_id cio_volume w :
  snd (_is_cluster_volume cluster_id cio_volume w) = w.
Proof.
  unfold _is_cluster_volume.
  destruct (CIOVolume.tags cio_volume !! CLUSTER_ID_LABEL) as [s|];
    [|reflexivity].
  unfold mbind, M_bind.
  pose proof (UUID_pure s w) as Hp.
  destruct (UUID_ s w) as [[u|e] w']; cbn in Hp; subst w'; [|reflexivity].
  now destruct (bool_decide _).
Qed.

Lemma is_cluster_volume_true cluster_id cio_volume w :
  fst (_is_cluster_volume cluster_id cio_volume w) = Returned true
  ↔ ∃ s, CIOVolume.tags cio_volume !! CLUSTER_ID_LABEL = Some s
         ∧ fst (UUID_ s w) = Returned cluster_id.
Proof.
  unfold _is_cluster_volume.
  destruct (CIOVolume.tags cio_volume !! CLUSTER_ID_LABEL) as [s|].
  - unfold mbind, M_bind.
    destruct (UUID_ s w) as [[u|e] w'] eqn:E; cbn.
    + destruct (bool_decide_reflect (u = cluster_id)) as [->|Hne]; cbn.
      * split; [intros _; exists s; now rewrite E|reflexivity].
      * split; [discriminate|].
        intros (s' & Hs & Hu). inversion Hs; subst s'.
        rewrite E in Hu. cbn in Hu. congruence.
    + split; [discriminate|].
      intros (s' & Hs & Hu). inversion Hs; subst s'.
      rewrite E in Hu. discriminate.
  - cbn. split; [discriminate|]. intros (s' & Hs & _). discriminate.
Qed.

Lemma is_cluster_volume_false cluster_id cio_volume w :
  fst (_is_cluster_volume cluster_id cio_volume w) = Returned false
  ↔ CIOVolume.tags cio_volume !! CLUSTER_ID_LABEL = None
    ∨ ∃ s u, CIOVolume.tags cio_volume !! CLUSTER_ID_LABEL = Some s
             ∧ fst (UUID_ s w) = Returned u ∧ u ≠ cluster_id.
Proof.
  unfold _is_cluster_volume.
  destruct (CIOVolume.tags cio_volume !! CLUSTER_ID_LABEL) as [s|].
  - unfold mbind, M_bind.
    destruct (UUID_ s w) as [[u|e] w'] eqn:E; cbn.
    + destruct (bool_decide_reflect (u = cluster_id)) as [->|Hne]; cbn.
      * split; [discriminate|].
        intros [Hn|(s' & u' & Hs & Hu & Hne)]; [discriminate|].
        inversion Hs; subst s'. rewrite E in Hu. cbn in Hu. congruence.
      * split; [|reflexivity].
        intros _. right. exists s, u. rewrite E. auto.
    + split; [discriminate|].
      intros [Hn|(s' & u' & Hs & Hu & _)]; [discriminate|].
      inversion Hs; subst s'. rewrite E in Hu. discriminate.
  - cbn. split; [now left|reflexivity].
Qed.

Lemma is_cluster_volume_no_named_error cluster_id cio_volume w :
  raises_named_error (fst (_is_cluster_volume cluster_id cio_volume w)) = false.
Proof.
  unfold _is_cluster_volume.
  destruct (CIOVolume.tags cio_volume !! CLUSTER_ID_LABEL) as [s|];
    [|reflexivity].
  unfold mbind, M_bind.
  pose proof (UUID_no_named_error s w) as Hn.
  destruct (UUID_ s w) as [[u|e] w']; cbn in *; [|exact Hn].
  now destruct (bool_decide _).
Qed.

(** ** The tag mapping of [create_volume] *)

Lemma labels_distinct :
  METADATA_VERSION_LABEL ≠ CLUSTER_ID_LABEL
  ∧ METADATA_VERSION_LABEL ≠ DATASET_ID_LABEL
  ∧ CLUSTER_ID_LABEL ≠ DATASET_ID_LABEL.
Proof. split; [|split]; discriminate. Qed.

Lemma create_volume_metadata_lookup cluster_id dataset_id k v :
  create_volume_metadata cluster_id dataset_id !! k = Some v
  ↔ (k = METADATA_VERSION_LABEL ∧ v = "1")
    ∨ (k = CLUSTER_ID_LABEL ∧ v = unicode_UUID cluster_id)
    ∨ (k = DATASET_ID_LABEL ∧ v = unicode_UUID dataset_id).
Proof.
  destruct labels_distinct as (H1 & H2 & H3).
  unfold create_volume_metadata.
  rewrite !lookup_insert_Some, lookup_empty.
  split.
  - intros [[<- <-]|[_ [[<- <-]|[_ [[<- <-]|[_ ?]]]]]]; auto. discriminate.
  - intros [[-> ->]|[[-> ->]|[-> ->]]]; auto 10.
Qed.

Lemma create_volume_metadata_size cluster_id dataset_id :
  size (create_volume_metadata cluster_id dataset_id) = 3%nat.
Proof.
  destruct labels_distinct as (H1 & H2 & H3).
  unfold create_volume_metadata.
  rewrite !map_size_insert_None, map_size_empty; [reflexivity|..].
  - apply lookup_empty.
  - rewrite lookup_insert_ne by congruence. apply lookup_empty.
  - rewrite !lookup_insert_ne by congruence. apply lookup_empty.
Qed.

Lemma public_operations_eq :
  public_operations =
  ["allocation_unit"; "compute_instance_id"; "create_volume"; "list_volumes";
   "attach_volume"; "detach_volume"; "destroy_volume"; "get_device_path"].
Proof. reflexivity. Qed.

(** * The claims *)

(** No call of an operation of the adapter, on any arguments and in any
    world, raises one of the four named errors; nor does a call of one of
    the two helpers. *)
Lemma no_run_raises_a_named_error (c : call) (cluster_id : UUID)
    (cio_volume : CIOVolume.t) (w : World) :
  raises_named_error (fst (run c w)) = false
  ∧ raises_named_error
      (fst (_blockdevicevolume_from_cio_volume cio_volume w)) = false
  ∧ raises_named_error
      (fst (_is_cluster_volume cluster_id cio_volume w)) = false.
Proof.
  split; [|split].
  - rewrite run_cases. destruct c; cbn; try reflexivity.
    destruct (instance_metadata w !! "instance-id") as [s|]; [|reflexivity].
    now destruct (all_ascii s).
  - now rewrite blockdevicevolume_from_cio_volume_stops.
  - apply is_cluster_volume_no_named_error.
Qed.



(** C3, as stated, fails: [attach_volume] does not stop on the name
    [attached_volume] but on [all_volumes], inside [_get_cio_volume];
    [create_volume] does not stop on [requested_volume] but at line 195. *)
Lemma attach_and_create_stop_elsewhere :
  fst (attach_volume "vol-1" "i-0abc" sample_world)
    = Raised (NameError "all_volumes")
  ∧ fst (attach_volume "vol-1" "i-0abc" sample_world)
    ≠ Raised (NameError "attached_volume")
  ∧ fst (create_volume sample_dataset_id 8589934592 sample_world)
    = Raised (SyntaxError 195)
  ∧ fst (create_volume sample_dataset_id 8589934592 sample_world)
    ≠ Raised (NameError "requested_volume").
Proof.
  split; [reflexivity|]. split; [discriminate|].
  split; [reflexivity|discriminate].
Qed.

(** C3, amended: on every input and in every world each of
    [create_volume], [list_volumes] and [attach_volume] raises, returns
    nothing and leaves the world as it was (no request went out):
    [list_volumes] on the name [cio_volume], which nothing binds;
    [attach_volume] on the name [all_volumes], which its first statement
    reads through [_get_cio_volume]; [create_volume] at the list display
    of line 195.  The names [requested_volume] and [attached_volume] are
    bound by nothing either, and are never reached. *)
Theorem create_list_attach_never_return (dataset_id : UUID) (size : Z)
    (blockdevice_id attach_to : string) (w : World) :
  create_volume dataset_id size w = (Raised (SyntaxError 195), w)
  ∧ list_volumes w = (Raised (NameError "cio_volume"), w)
  ∧ attach_volume blockdevice_id attach_to w
    = (Raised (NameError "all_volumes"), w)
  ∧ unbound "requested_volume" ∧ unbound "attached_volume".
Proof.
  split; [apply create_volume_stops|].
  split; [apply list_volumes_stops|].
  split; [apply attach_volume_stops|].
  split; [apply unbound_requested_volume|apply unbound_attached_volume].
Qed.

(** C4: [get_device_path] gets to none of its checks.  For every
    identifier it stops in the lookup of line 320; and from line 321 on,
    for whatever volume a lookup would hand it, attached or not, it stops
    in the conversion helper, before [attached_to] is read. *)
Theorem get_device_path_reaches_no_check (blockdevice_id : string)
    (cio_volume : CIOVolume.t) (w : World) :
  get_device_path blockdevice_id w = (Raised (NameError "all_volumes"), w)
  ∧ get_device_path_of blockdevice_id cio_volume w
    = (Raised (NameError "ebs_volume"), w).
Proof.
  split; [apply get_device_path_stops|apply get_device_path_of_stops].
Qed.

(** C5: the dict display of lines 199-203 has the three pairs and no
    other, but no run of [create_volume] gets to it: the statement before
    it, the list display of line 195, already stops the call. *)
Theorem create_volume_stops_before_metadata (cluster_id dataset_id : UUID)
    (size_ : Z) (w : World) :
  (∀ k v, create_volume_metadata cluster_id dataset_id !! k = Some v
          ↔ (k = "flocker-metadata-version" ∧ v = "1")
            ∨ (k = "flocker-cluster-id" ∧ v = unicode_UUID cluster_id)
            ∨ (k = "flocker-dataset-id" ∧ v = unicode_UUID dataset_id))
  ∧ size (create_volume_metadata cluster_id dataset_id) = 3%nat
  ∧ create_volume_command size_ w = (Raised (SyntaxError 195), w)
  ∧ create_volume dataset_id size_ w = (Raised (SyntaxError 195), w).
Proof.
  split; [intros k v; apply create_volume_metadata_lookup|].
  split; [apply create_volume_metadata_size|].
  split; [apply create_volume_command_stops|apply create_volume_stops].
Qed.

(** C6, as stated, fails: the helper [_is_cluster_volume] is a complete,
    working check.  It answers [True] for a volume tagged with the
    cluster's id and [False] for a volume tagged otherwise or not at all. *)
Lemma is_cluster_volume_is_a_working_check :
  fst (_is_cluster_volume sample_cluster_id sample_volume sample_world)
    = Returned true
  ∧ fst (_is_cluster_volume sample_cluster_id foreign_volume sample_world)
    = Returned false
  ∧ fst (_is_cluster_volume sample_cluster_id untagged_volume sample_world)
    = Returned false.
Proof. split; [|split]; vm_compute; reflexivity. Qed.

Lemma is_cluster_volume_with_cases UUID_of cluster_id cio_volume w :
  fst (_is_cluster_volume_with UUID_of cluster_id cio_volume w) =
  match CIOVolume.tags cio_volume !! CLUSTER_ID_LABEL with
  | None => Returned false
  | Some s =>
      match fst (UUID_of s w) with
      | Returned u => Returned (bool_decide (u = cluster_id))
      | Raised e => Raised e
      end
  end.
Proof.
  unfold _is_cluster_volume_with.
  destruct (CIOVolume.tags cio_volume !! CLUSTER_ID_LABEL) as [s|];
    [|reflexivity].
  unfold mbind, M_bind.
  destruct (UUID_of s w) as [[u|e] w']; [|reflexivity].
  cbn [fst]. now destruct (bool_decide (u = cluster_id)).
Qed.

(** C6, amended: [_is_cluster_volume] is a complete check.  Whatever
    texts the library's [UUID] accepts, the function answers [True]
    exactly when the volume's cluster-id tag is there and [UUID] turns it
    into the given cluster id, and [False] exactly when the tag is missing
    or [UUID] turns it into another id.  But no operation applies it:
    [list_volumes], the one caller, stops on the unbound name
    [cio_volume] while it evaluates the arguments of the call. *)
Theorem cluster_check_complete_but_unused (UUID_of : string → M UUID)
    (cluster_id : UUID) (cio_volume : CIOVolume.t) (w : World) :
  (fst (_is_cluster_volume_with UUID_of cluster_id cio_volume w)
   = Returned true
   ↔ ∃ s, CIOVolume.tags cio_volume !! CLUSTER_ID_LABEL = Some s
          ∧ fst (UUID_of s w) = Returned cluster_id)
  ∧ (fst (_is_cluster_volume_with UUID_of cluster_id cio_volume w)
     = Returned false
     ↔ CIOVolume.tags cio_volume !! CLUSTER_ID_LABEL = None
       ∨ ∃ s u, CIOVolume.tags cio_volume !! CLUSTER_ID_LABEL = Some s
                ∧ fst (UUID_of s w) = Returned u ∧ u ≠ cluster_id)
  ∧ _is_cluster_volume = _is_cluster_volume_with UUID_
  ∧ list_volumes w = (Raised (NameError "cio_volume"), w).
Proof.
  rewrite is_cluster_volume_with_cases.
  split; [|split; [|split; [reflexivity|apply list_volumes_stops]]].
  - destruct (CIOVolume.tags cio_volume !! CLUSTER_ID_LABEL) as [s|].
    + destruct (fst (UUID_of s w)) as [u|e] eqn:E.
      * destruct (bool_decide_reflect (u = cluster_id)) as [->|Hne].
        -- split; [intros _; eauto|reflexivity].
        -- split; [discriminate|].
           intros (s' & [= <-] & H). congruence.
      * split; [discriminate|]. intros (s' & [= <-] & H). congruence.
    + split; [discriminate|]. intros (s' & Hs & _). discriminate.
  - destruct (CIOVolume.tags cio_volume !! CLUSTER_ID_LABEL) as [s|].
    + destruct (fst (UUID_of s w)) as [u|e] eqn:E.
      * destruct (bool_decide_reflect (u = cluster_id)) as [->|Hne].
        -- split; [discriminate|].
           intros [Hn|(s' & u' & [= <-] & Hu & Hne)]; [discriminate|].
           congruence.
        -- split; [|reflexivity]. intros _. right. eauto.
      * split; [discriminate|].
        intros [Hn|(s' & u' & [= <-] & Hu & _)]; [discriminate|].
        congruence.
    + split; [now left|reflexivity].
Qed.

(** C7: no operation takes or frees the lock.  A call leaves the [lock]
    field as it found it, and run with any other lock in place it gives
    the same outcome and the same world, that lock apart. *)
Theorem lock_never_used (c : call) (w : World) (l : Lock) :
  lock (api (snd (run c w))) = lock (api w)
  ∧ run c (set_lock l w) = (fst (run c w), set_lock l (snd (run c w))).
Proof.
  rewrite !run_cases. destruct c; cbn; split; reflexivity.
Qed.

(** C8, as stated, fails: [compute_instance_id] is a public operation of
    the class and is not among the operations the overview names. *)
Lemma compute_instance_id_is_public :
  "compute_instance_id" ∈ public_operations
  ∧ ("compute_instance_id" ∉ spec_named_operations)
  ∧ public_operations ≠ spec_named_operations.
Proof.
  split; [|split].
  - rewrite public_operations_eq. set_solver.
  - unfold spec_named_operations. rewrite !elem_of_cons, elem_of_nil.
    intros H. repeat (destruct H as [H|H]; [discriminate|]). exact H.
  - rewrite public_operations_eq. discriminate.
Qed.

(** C8, amended: the class has eight public operations, the seven that
    the overview names and [compute_instance_id]; each is a method that
    can be called; what else the class body defines, [__init__] and
    [_get_cio_volume], is not public. *)
Theorem public_operations_of_the_class :
  public_operations =
    ["allocation_unit"; "compute_instance_id"; "create_volume";
     "list_volumes"; "attach_volume"; "detach_volume"; "destroy_volume";
     "get_device_path"]
  ∧ (∀ name, name ∈ public_operations
             ↔ name ∈ spec_named_operations ∨ name = "compute_instance_id")
  ∧ (∀ c, method_name c ∈ class_body)
  ∧ (∀ name, name ∈ class_body
             ↔ name ∈ public_operations ∨ name = "__init__"
               ∨ name = "_get_cio_volume").
Proof.
  split; [apply public_operations_eq|].
  split; [|split].
  - intros name. rewrite public_operations_eq. unfold spec_named_operations.
    rewrite !elem_of_cons, !elem_of_nil. tauto.
  - intros c. unfold class_body. destruct c; cbn; set_solver.
  - intros name. rewrite public_operations_eq. unfold class_body.
    rewrite !elem_of_cons, !elem_of_nil. tauto.
Qed.

(** C9: the conversion helper produces no [BlockDeviceVolume]: for every
    volume it evaluates [unicode(cio_volume.id)] and then stops on the
    name [ebs_volume] of line 92, which nothing binds. *)
Theorem conversion_helper_produces_nothing (cio_volume : CIOVolume.t)
    (w : World) :
  _blockdevicevolume_from_cio_volume cio_volume w
    = (Raised (NameError "ebs_volume"), w)
  ∧ unbound "ebs_volume".
Proof.
  split; [apply blockdevicevolume_from_cio_volume_stops|].
  apply unbound_ebs_volume.
Qed.

(** C10: [allocation_unit] returns 8589934592, that is 8 GiB, for every
    adapter instance and in every world, and changes nothing. *)
Theorem allocation_unit_is_8_GiB (w : World) :
  allocation_unit w = (Returned 8589934592, w)
  ∧ run Call_allocation_unit w = (Returned (PyInt 8589934592), w)
  ∧ 8589934592 = 8 * 1024 * 1024 * 1024.
Proof. split; [|split]; reflexivity. Qed.

(** ** Further properties of the code as written *)

(** X1: the loop of [_get_cio_volume] (lines 168-171), run on a list of
    volumes, returns the first one whose [id] is the identifier asked for,
    raises [UnknownVolume] when there is none, and changes nothing. *)
Theorem get_cio_volume_loop_finds_first (volumes : list CIOVolume.t)
    (blockdevice_id : string) (w : World) :
  _get_cio_volume_loop (PyVolume <$> volumes) blockdevice_id w =
  (match List.find (λ v, bool_decide (CIOVolume.id v = blockdevice_id))
           volumes with
   | Some v => Returned v
   | None => Raised (UnknownVolume blockdevice_id)
   end, w).
Proof.
  induction volumes as [|v volumes IH]; [reflexivity|].
  cbn [fmap list_fmap _get_cio_volume_loop List.find].
  erewrite bind_returned by reflexivity.
  destruct (bool_decide (CIOVolume.id v = blockdevice_id)).
  - reflexivity.
  - exact IH.
Qed.

(** *** [EliotLogHandler.emit] *)

Lemma emit_cases record w :
  emit record w =
  (match record !! "msg" with
   | None => Returned []
   | Some (PyUnicode s) | Some (PyBytes s) =>
       if bool_decide (before_colon s ∈ _to_log)
       then Raised (NameError "BOTO_LOG_HEADER")
       else Returned []
   | Some _ => Raised (AttributeError "split")
   end, w).
Proof.
  unfold emit, msg_of.
  destruct (record !! "msg") as [[]|] eqn:E;
    try (apply bind_raised; reflexivity).
  - erewrite bind_returned by reflexivity.
    destruct (bool_decide (before_colon s ∈ _to_log)); [|reflexivity].
    now apply bind_raised.
  - erewrite bind_returned by reflexivity.
    destruct (bool_decide (before_colon s ∈ _to_log)); [|reflexivity].
    now apply bind_raised.
  - reflexivity.
Qed.

(** X3: [emit] hands no message to Eliot, whatever the record.  When the
    text of [msg] before its first colon is ["Method"], ["Path"] or
    ["Params"] it raises [NameError] on [BOTO_LOG_HEADER], which nothing
    binds; for any other text, and for a record with no [msg], it does
    nothing; a [msg] that is no string has no [split].  The world is left
    as it was. *)
Theorem emit_writes_nothing (record : gmap string pyobj) (w : World) :
  match fst (emit record w) with
  | Returned messages => messages = []
  | Raised e => e = NameError "BOTO_LOG_HEADER" ∨ e = AttributeError "split"
  end
  ∧ emit record w =
    (match record !! "msg" with
     | None => Returned []
     | Some (PyUnicode s) | Some (PyBytes s) =>
         if bool_decide (before_colon s ∈ _to_log)
         then Raised (NameError "BOTO_LOG_HEADER")
         else Returned []
     | Some _ => Raised (AttributeError "split")
     end, w).
Proof.
  split; [|apply emit_cases].
  rewrite emit_cases. cbn [fst].
  destruct (record !! "msg") as [[]|]; auto;
    destruct (bool_decide _); auto.
Qed.

(** *** [AttachedUnexpectedDevice.__str__] *)

Lemma string_app_assoc (a b c : string) : (a ++ b) ++ c = a ++ (b ++ c).
Proof.
  induction a as [|x a IH]; [reflexivity|].
  change (String x ((a ++ b) ++ c) = String x (a ++ (b ++ c))).
  now rewrite IH.
Qed.

Lemma contains_char_plain s :
  string_forall plain_char s = true → contains_char single_quote s = false.
Proof.
  induction s as [|c s IH]; [reflexivity|]. cbn.
  intros [Hc Hs]%andb_prop. rewrite (IH Hs), orb_false_r.
  unfold plain_char in Hc.
  apply andb_prop in Hc as [[_ Hq]%andb_prop _].
  now apply negb_true_iff in Hq.
Qed.

Lemma repr_char_plain c :
  plain_char c = true → repr_char single_quote c = String c EmptyString.
Proof.
  unfold plain_char, repr_char.
  intros [[[Hlo Hhi]%andb_prop Hq]%andb_prop Hb]%andb_prop.
  apply negb_true_iff in Hq, Hb. rewrite Hq, Hb. cbn [orb].
  apply N.leb_le in Hlo. apply N.ltb_lt in Hhi.
  destruct (N.eqb_spec (N_of_ascii c) 9); [lia|].
  destruct (N.eqb_spec (N_of_ascii c) 10); [lia|].
  destruct (N.eqb_spec (N_of_ascii c) 13); [lia|].
  destruct (N.ltb_spec (N_of_ascii c) 32); [lia|].
  destruct (N.leb_spec 127 (N_of_ascii c)); [lia|].
  reflexivity.
Qed.

Lemma repr_body_plain s :
  string_forall plain_char s = true → repr_body single_quote s = s.
Proof.
  induction s as [|c s IH]; [reflexivity|]. cbn.
  intros [Hc Hs]%andb_prop.
  now rewrite (repr_char_plain c Hc), (IH Hs).
Qed.

Lemma repr_plain s :
  string_forall plain_char s = true → repr s = "'" ++ s ++ "'".
Proof.
  intros Hs. unfold repr, repr_quote.
  rewrite (contains_char_plain s Hs). cbn [andb].
  now rewrite (repr_body_plain s Hs).
Qed.

(** X4: for two paths of printable ASCII characters with no single quote
    and no backslash in them, the text of an [AttachedUnexpectedDevice]
    is the template with each path between single quotes, unchanged; and
    [__repr__] is the same text. *)
Theorem AttachedUnexpectedDevice_str_plain (requested discovered : string) :
  string_forall plain_char requested = true →
  string_forall plain_char discovered = true →
  AttachedUnexpectedDevice__str__ requested discovered
  = "AttachedUnexpectedDevice(requested='" ++ requested
    ++ "', discovered='" ++ discovered ++ "')"
  ∧ AttachedUnexpectedDevice__repr__ requested discovered
    = AttachedUnexpectedDevice__str__ requested discovered.
Proof.
  intros Hr Hd. split; [|reflexivity].
  unfold AttachedUnexpectedDevice__str__.
  rewrite (repr_plain _ Hr), (repr_plain _ Hd).
  rewrite !string_app_assoc. reflexivity.
Qed.

Lemma AttachedUnexpectedDevice_str_plain_witness :
  string_forall plain_char "/dev/sdb" = true
  ∧ string_forall plain_char "/dev/xvdc" = true
  ∧ AttachedUnexpectedDevice__str__ "/dev/sdb" "/dev/xvdc"
    = "AttachedUnexpectedDevice(requested='/dev/sdb', discovered='/dev/xvdc')".
Proof.
  split; [reflexivity|]. split; [reflexivity|].
  exact (proj1 (AttachedUnexpectedDevice_str_plain "/dev/sdb" "/dev/xvdc"
                  eq_refl eq_refl)).
Defined.

(** *** The checks of [get_device_path] *)

(** Lines 321-334 are the conversion followed by the checks. *)
Lemma get_device_path_of_checks blockdevice_id cio_volume :
  get_device_path_of blockdevice_id cio_volume
  = (_blockdevicevolume_from_cio_volume cio_volume
     ≫= get_device_path_checks blockdevice_id cio_volume).
Proof. reflexivity. Qed.

Lemma get_device_path_checks_cases (blockdevice_id : string)
    (cio_volume : CIOVolume.t) (volume : BlockDeviceVolume.t) (w : World) :
  get_device_path_checks blockdevice_id cio_volume volume w =
  match BlockDeviceVolume.attached_to volume with
  | None => (Raised (UnattachedVolume blockdevice_id), w)
  | Some attached_to =>
      (match fst (compute_instance_id w) with
       | Raised e => Raised e
       | Returned local =>
           if bool_decide (attached_to = local)
           then Raised (NameError "_expected_device")
           else Raised (Exception ("Volume is attached to " ++ attached_to
                                   ++ ", not to " ++ local))
       end, after_request w)
  end.
Proof.
  unfold get_device_path_checks.
  destruct (BlockDeviceVolume.attached_to volume) as [a|]; [|reflexivity].
  unfold mbind at 1. unfold M_bind.
  rewrite compute_instance_id_cases. cbn [fst].
  destruct (instance_metadata w !! "instance-id") as [s|]; [|reflexivity].
  destruct (all_ascii s); [|reflexivity].
  destruct (bool_decide_reflect (a = s)) as [->|Hne].
  - rewrite bool_decide_eq_false_2 by (intros H; now apply H).
    now apply bind_raised.
  - now rewrite bool_decide_eq_true_2.
Qed.

(** X5: the checks of lines 322-334, run on a converted volume.  A volume
    attached to nothing gives [UnattachedVolume] with the identifier asked
    for, and no request to the metadata service is made.  For an attached
    volume one request is made; when it fails, its error is the outcome;
    when it names another instance than the volume's, the outcome is the
    [Exception] whose text names both. *)
Theorem get_device_path_checks_outcome (blockdevice_id : string)
    (cio_volume : CIOVolume.t) (volume : BlockDeviceVolume.t) (w : World) :
  get_device_path_checks blockdevice_id cio_volume volume w =
  match BlockDeviceVolume.attached_to volume with
  | None => (Raised (UnattachedVolume blockdevice_id), w)
  | Some attached_to =>
      (match fst (compute_instance_id w) with
       | Raised e => Raised e
       | Returned local =>
           if bool_decide (attached_to = local)
           then Raised (NameError "_expected_device")
           else Raised (Exception ("Volume is attached to " ++ attached_to
                                   ++ ", not to " ++ local))
       end, after_request w)
  end.
Proof. apply get_device_path_checks_cases. Qed.

(** X6: whatever volume the checks of lines 322-334 are run on, and in
    whatever world, they return no device path: the one branch that gets
    to line 334 stops on the name [_expected_device], which nothing binds. *)
Theorem get_device_path_checks_never_return (blockdevice_id : string)
    (cio_volume : CIOVolume.t) (volume : BlockDeviceVolume.t) (w : World) :
  returns (fst (get_device_path_checks blockdevice_id cio_volume volume w))
  = false.
Proof.
  rewrite get_device_path_checks_cases.
  destruct (BlockDeviceVolume.attached_to volume) as [a|]; [|reflexivity].
  cbn [fst]. destruct (fst (compute_instance_id w)) as [s|e]; [|reflexivity].
  now destruct (bool_decide (a = s)).
Qed.

(** *** Calls one after another *)

Lemma run_world_api c w : api (run_world c w) = api w.
Proof. now destruct c. Qed.

Lemma run_world_metadata c w :
  instance_metadata (run_world c w) = instance_metadata w.
Proof. now destruct c. Qed.

Lemma run_world_requests c w :
  metadata_requests (run_world c w)
  = (metadata_requests w
     + (if is_compute_instance_id c then 1 else 0))%nat.
Proof. destruct c; cbn; lia. Qed.

(** X7: however many calls a client makes, in whatever order and with
    whatever arguments, the adapter instance (its cluster id and its lock)
    and the instance metadata end as they began, there is one outcome per
    call, and the metadata service has been asked exactly once per call of
    [compute_instance_id]. *)
Theorem run_calls_invariant (cs : list call) (w : World) :
  api (snd (run_calls cs w)) = api w
  ∧ instance_metadata (snd (run_calls cs w)) = instance_metadata w
  ∧ metadata_requests (snd (run_calls cs w))
    = (metadata_requests w
       + length (filter (λ c, is_compute_instance_id c = true) cs))%nat
  ∧ length (fst (run_calls cs w)) = length cs.
Proof.
  revert w. induction cs as [|c cs IH]; intros w.
  - cbn. repeat split; lia.
  - cbn [run_calls]. rewrite run_cases.
    specialize (IH (run_world c w)).
    destruct (run_calls cs (run_world c w)) as [os w''] eqn:E.
    cbn [fst snd] in *. destruct IH as (Ha & Hm & Hr & Hl).
    rewrite Ha, Hm, Hr, run_world_api, run_world_metadata,
      run_world_requests.
    repeat split; [|cbn; now rewrite Hl].
    rewrite filter_cons.
    destruct (is_compute_instance_id c) eqn:Ec.
    + rewrite decide_True by reflexivity. cbn [length]. lia.
    + rewrite decide_False by discriminate. lia.
Qed.

(** *** [detach_volume] and [destroy_volume] *)

(** X8: for every identifier and in every world, [detach_volume] and
    [destroy_volume] stop on the name [all_volumes] in the lookup of their
    first statement and leave the world as it was: neither returns, and
    what they give does not depend on the identifier. *)
Theorem detach_and_destroy_do_nothing (blockdevice_id : string) (w : World) :
  detach_volume blockdevice_id w = (Raised (NameError "all_volumes"), w)
  ∧ destroy_volume blockdevice_id w = (Raised (NameError "all_volumes"), w)
  ∧ run (Call_detach_volume blockdevice_id) w
    = (Raised (NameError "all_volumes"), w)
  ∧ run (Call_destroy_volume blockdevice_id) w
    = (Raised (NameError "all_volumes"), w).
Proof.
  split; [apply detach_volume_stops|].
  split; [apply destroy_volume_stops|].
  split; apply run_cases.
Qed.

(** *** The loop of [_get_cio_volume] *)

Lemma get_cio_volume_loop_find volumes blockdevice_id w :
  _get_cio_volume_loop (PyVolume <$> volumes) blockdevice_id w =
  (match List.find (λ v, bool_decide (CIOVolume.id v = blockdevice_id))
           volumes with
   | Some v => Returned v
   | None => Raised (UnknownVolume blockdevice_id)
   end, w).
Proof.
  induction volumes as [|v volumes IH]; [reflexivity|].
  cbn [fmap list_fmap _get_cio_volume_loop List.find].
  erewrite bind_returned by reflexivity.
  now destruct (bool_decide (CIOVolume.id v = blockdevice_id)).
Qed.

(** X9: run on a list of volumes, the loop of lines 168-171 raises
    [UnknownVolume] exactly when no volume of the list has the identifier
    asked for; a volume it returns is one of the list and has that
    identifier; and it raises nothing but [UnknownVolume]. *)
Theorem get_cio_volume_loop_sound_complete (volumes : list CIOVolume.t)
    (blockdevice_id : string) (w : World) :
  (fst (_get_cio_volume_loop (PyVolume <$> volumes) blockdevice_id w)
   = Raised (UnknownVolume blockdevice_id)
   ↔ ∀ v, v ∈ volumes → CIOVolume.id v ≠ blockdevice_id)
  ∧ (∀ v, fst (_get_cio_volume_loop (PyVolume <$> volumes) blockdevice_id w)
          = Returned v
          → v ∈ volumes ∧ CIOVolume.id v = blockdevice_id)
  ∧ (∀ e, fst (_get_cio_volume_loop (PyVolume <$> volumes) blockdevice_id w)
          = Raised e
          → e = UnknownVolume blockdevice_id).
Proof.
  rewrite get_cio_volume_loop_find. cbn [fst].
  destruct (List.find _ volumes) as [v0|] eqn:E.
  - apply List.find_some in E as [Hin Hid].
    apply list_elem_of_In in Hin. apply bool_decide_eq_true in Hid.
    split; [|split].
    + split; [discriminate|]. intros H. now destruct (H v0 Hin).
    + intros v [= <-]. now split.
    + discriminate.
  - split; [|split].
    + split; [|reflexivity]. intros _ v Hin Hid.
      apply list_elem_of_In in Hin.
      pose proof (List.find_none _ _ E v Hin) as Hn. cbn in Hn.
      apply bool_decide_eq_false in Hn. contradiction.
    + discriminate.
    + now intros e [= <-].
Qed.

(** *** [_is_cluster_volume]: errors, frame, exclusiveness *)

Lemma UUID_world hex w w' : fst (UUID_ hex w) = fst (UUID_ hex w').
Proof. reflexivity. Qed.

Lemma UUID_raises_ValueError hex w e :
  fst (UUID_ hex w) = Raised e → is_ValueError e = true.
Proof.
  unfold UUID_; cbn [fst]. intros E.
  now destruct (UUID_parse_raises hex e E) as [msg ->].
Qed.

Lemma is_cluster_volume_cases cluster_id cio_volume w :
  fst (_is_cluster_volume cluster_id cio_volume w) =
  match CIOVolume.tags cio_volume !! CLUSTER_ID_LABEL with
  | None => Returned false
  | Some s =>
      match fst (UUID_ s w) with
      | Returned u => Returned (bool_decide (u = cluster_id))
      | Raised e => Raised e
      end
  end.
Proof.
  unfold _is_cluster_volume.
  destruct (CIOVolume.tags cio_volume !! CLUSTER_ID_LABEL) as [s|];
    [|reflexivity].
  unfold mbind, M_bind.
  destruct (UUID_ s w) as [[u|e] w']; [|reflexivity].
  cbn [fst]. now destruct (bool_decide (u = cluster_id)).
Qed.

(** X10: whatever the library's [UUID] does, [_is_cluster_volume] raises
    exactly when the volume has a cluster-id tag on which [UUID] raises,
    and it raises that same error: a tag that [UUID] refuses is an error,
    not the answer [False], and a volume without the tag never raises. *)
Theorem is_cluster_volume_raises (UUID_of : string → M UUID)
    (cluster_id : UUID) (cio_volume : CIOVolume.t) (w : World) (e : exn) :
  (fst (_is_cluster_volume_with UUID_of cluster_id cio_volume w) = Raised e
   ↔ ∃ s, CIOVolume.tags cio_volume !! CLUSTER_ID_LABEL = Some s
          ∧ fst (UUID_of s w) = Raised e)
  ∧ _is_cluster_volume = _is_cluster_volume_with UUID_.
Proof.
  split; [|reflexivity]. rewrite is_cluster_volume_with_cases.
  destruct (CIOVolume.tags cio_volume !! CLUSTER_ID_LABEL) as [s|].
  - destruct (fst (UUID_of s w)) as [u|e'] eqn:E.
    + split; [discriminate|]. intros (s' & [= <-] & H). congruence.
    + split; [intros [= <-]; eauto|].
      intros (s' & [= <-] & H). congruence.
  - split; [discriminate|]. intros (s' & Hs & _). discriminate.
Qed.

(** X11: the answer of [_is_cluster_volume] depends on the volume only
    through its cluster-id tag, and not on the world: two volumes with the
    same tag (or both with none) get the same answer, whatever their
    identifiers, sizes, attachments and other tags. *)
Theorem is_cluster_volume_reads_only_the_tag (cluster_id : UUID)
    (v1 v2 : CIOVolume.t) (w1 w2 : World) :
  CIOVolume.tags v1 !! CLUSTER_ID_LABEL = CIOVolume.tags v2 !! CLUSTER_ID_LABEL →
  fst (_is_cluster_volume cluster_id v1 w1)
  = fst (_is_cluster_volume cluster_id v2 w2).
Proof.
  intros H. rewrite !is_cluster_volume_cases, H.
  destruct (CIOVolume.tags v2 !! CLUSTER_ID_LABEL) as [s|]; [|reflexivity].
  now rewrite (UUID_world s w1 w2).
Qed.

Lemma is_cluster_volume_reads_only_the_tag_witness :
  CIOVolume.tags sample_volume !! CLUSTER_ID_LABEL
  = CIOVolume.tags sample_volume_attached !! CLUSTER_ID_LABEL
  ∧ fst (_is_cluster_volume sample_cluster_id sample_volume sample_world)
    = fst (_is_cluster_volume sample_cluster_id sample_volume_attached
             (after_request sample_world)).
Proof.
  assert (H : CIOVolume.tags sample_volume !! CLUSTER_ID_LABEL
              = CIOVolume.tags sample_volume_attached !! CLUSTER_ID_LABEL)
    by (vm_compute; reflexivity).
  split; [exact H|].
  exact (is_cluster_volume_reads_only_the_tag sample_cluster_id
           sample_volume sample_volume_attached sample_world
           (after_request sample_world) H).
Defined.

(** X12: a volume belongs to at most one cluster: when
    [_is_cluster_volume] answers [True] for two cluster ids on the same
    volume, the two ids are equal. *)
Theorem is_cluster_volume_exclusive (c1 c2 : UUID) (cio_volume : CIOVolume.t)
    (w1 w2 : World) :
  fst (_is_cluster_volume c1 cio_volume w1) = Returned true →
  fst (_is_cluster_volume c2 cio_volume w2) = Returned true →
  c1 = c2.
Proof.
  rewrite !is_cluster_volume_cases.
  destruct (CIOVolume.tags cio_volume !! CLUSTER_ID_LABEL) as [s|];
    [|discriminate].
  rewrite (UUID_world s w2 w1).
  destruct (fst (UUID_ s w1)) as [u|e]; [|discriminate].
  intros [= H1%bool_decide_eq_true] [= H2%bool_decide_eq_true].
  congruence.
Qed.

Lemma is_cluster_volume_exclusive_witness :
  fst (_is_cluster_volume sample_cluster_id sample_volume sample_world)
    = Returned true
  ∧ sample_cluster_id = sample_cluster_id.
Proof.
  assert (H : fst (_is_cluster_volume sample_cluster_id sample_volume
                     sample_world) = Returned true)
    by (vm_compute; reflexivity).
  split; [exact H|].
  exact (is_cluster_volume_exclusive sample_cluster_id sample_cluster_id
           sample_volume sample_world sample_world H H).
Defined.

(** *** The tags [create_volume] writes, read back *)

Lemma hex_char_facts d :
  (d < 16)%N → hexlow (hex_char d) = true ∧ hex_digit (hex_char d) = Some d.
Proof.
  intros H. destruct d as [|p]; [now vm_compute|].
  repeat (destruct p as [p|p|]; try lia); now vm_compute.
Qed.

Lemma hexlow_facts c :
  hexlow c = true →
  is_brace c = false ∧ Ascii.eqb c "-" = false ∧ Ascii.eqb c "u" = false.
Proof.
  destruct c as [[] [] [] [] [] [] [] []]; vm_compute; intros H;
    try discriminate H; auto.
Qed.

Lemma hex_digits_length k : ∀ n acc,
  String.length (hex_digits k n acc) = (k + String.length acc)%nat.
Proof.
  induction k as [|k IH]; intros n acc; [reflexivity|].
  cbn [hex_digits]. rewrite IH. cbn [String.length]. lia.
Qed.

Lemma hex_digits_hexlow k : ∀ n acc,
  string_forall hexlow acc = true →
  string_forall hexlow (hex_digits k n acc) = true.
Proof.
  induction k as [|k IH]; intros n acc Hacc; [exact Hacc|].
  cbn [hex_digits]. apply IH. cbn [string_forall].
  destruct (hex_char_facts (n mod 16)%N) as [-> _]; [|exact Hacc].
  apply N.mod_lt. discriminate.
Qed.

Lemma long16_hex_digits k : ∀ n acc rest,
  long16 acc (hex_digits k n rest)
  = long16 (acc * 16 ^ N.of_nat k + n mod 16 ^ N.of_nat k)%N rest.
Proof.
  induction k as [|k IH]; intros n acc rest.
  - cbn [hex_digits]. f_equal. change (16 ^ N.of_nat 0)%N with 1%N.
    rewrite N.mod_1_r. lia.
  - cbn [hex_digits]. rewrite IH. cbn [long16].
    destruct (hex_char_facts (n mod 16)%N) as [_ ->];
      [apply N.mod_lt; discriminate|].
    f_equal. rewrite Nat2N.inj_succ, N.pow_succ_r'.
    rewrite (N.Div0.mod_mul_r n 16 (16 ^ N.of_nat k)). lia.
Qed.

Lemma long16_hex_digits_32 n :
  (n < 2 ^ 128)%N → long16 0 (hex_digits 32 n "") = Some n.
Proof.
  intros H. rewrite long16_hex_digits. cbn [long16]. f_equal.
  change (16 ^ N.of_nat 32)%N with (2 ^ 128)%N.
  rewrite N.mod_small by exact H. lia.
Qed.

Lemma remove_all_absent c0 rest s :
  string_forall (λ c, negb (Ascii.eqb c c0)) s = true →
  remove_all (String c0 rest) 0 s = s.
Proof.
  induction s as [|a s IH]; [reflexivity|].
  cbn [string_forall remove_all String.prefix].
  intros [Ha Hs]%andb_prop.
  destruct (ascii_dec c0 a) as [->|_].
  - now rewrite Ascii.eqb_refl in Ha.
  - now rewrite (IH Hs).
Qed.

Lemma remove_all_single a s :
  remove_all (String a "") 0 s = without_char a s.
Proof.
  induction s as [|c s IH]; [reflexivity|].
  cbn [remove_all without_char String.prefix String.length Nat.pred].
  destruct (ascii_dec a c) as [->|Hne].
  - rewrite Ascii.eqb_refl. destruct s; exact IH.
  - destruct (Ascii.eqb_spec c a) as [->|_]; [contradiction|].
    now rewrite IH.
Qed.

Ltac use_char_facts :=
  repeat match goal with
  | H : Ascii.eqb ?a ?b = false |- context [Ascii.eqb ?a ?b] => rewrite H
  | H : is_brace ?a = false |- context [is_brace ?a] => rewrite H
  end.

Lemma without_char_cons_ne a c s :
  Ascii.eqb c a = false →
  without_char a (String c s) = String c (without_char a s).
Proof. intros H. cbn [without_char]. now rewrite H. Qed.

Lemma without_char_cons_eq a s :
  without_char a (String a s) = without_char a s.
Proof. cbn [without_char]. now rewrite Ascii.eqb_refl. Qed.

Lemma hexlow_no_prefix c :
  hexlow c = true →
  is_space c = false ∧ Ascii.eqb c "+" = false ∧ Ascii.eqb c "x" = false
  ∧ Ascii.eqb c "X" = false.
Proof.
  destruct c as [[] [] [] [] [] [] [] []]; vm_compute; intros H;
    try discriminate H; auto.
Qed.

Lemma hex_run_long16 s : ∀ acc k v,
  long16 acc s = Some v →
  hex_run acc k s = (v, (k + String.length s)%nat, "").
Proof.
  induction s as [|c s IH]; intros acc k v.
  - intros [= <-]. cbn. now rewrite Nat.add_0_r.
  - cbn [long16 hex_run String.length].
    destruct (hex_digit c) as [d|]; [|discriminate].
    intros H. rewrite (IH _ (S k) v H). do 2 f_equal. lia.
Qed.

(** A string of two or more lower-case hexadecimal digits is read as its
    value: it has no blank, sign, prefix or suffix to drop. *)
Lemma long_base16_digits c c2 s n :
  hexlow c = true → hexlow c2 = true →
  long16 0 (String c (String c2 s)) = Some n →
  long_base16 (String c (String c2 s)) = Some (Z.of_N n).
Proof.
  intros Hc Hc2 Hlong.
  destruct (hexlow_no_prefix c Hc) as (Hs & Hp & _ & _).
  destruct (hexlow_no_prefix c2 Hc2) as (_ & _ & Hx & HX).
  destruct (hexlow_facts c Hc) as (_ & Hm & _).
  unfold long_base16.
  assert (E1 : lstrip_spaces (String c (String c2 s)) = String c (String c2 s))
    by (cbn [lstrip_spaces]; now rewrite Hs).
  rewrite E1.
  assert (E2 : split_sign (String c (String c2 s))
               = (false, String c (String c2 s)))
    by (unfold split_sign; now rewrite Hp, Hm).
  rewrite E2, E1.
  assert (E3 : skip_0x (String c (String c2 s)) = String c (String c2 s))
    by (unfold skip_0x; rewrite Hx, HX; now rewrite andb_false_r).
  rewrite E3, (hex_run_long16 _ 0 0%nat n Hlong).
  reflexivity.
Qed.

Lemma UUID_of_hyphenated h n w :
  String.length h = 32%nat → string_forall hexlow h = true →
  long16 0 h = Some n → (n < 2 ^ 128)%N →
  UUID_ (hyphenate h) w = (Returned (mkUUID n), w).
Proof.
  intros Hlen Hhex Hlong Hn.
  assert (Hlb : long_base16 h = Some (Z.of_N n)).
  { destruct h as [|c [|c2 h']]; [discriminate Hlen..|].
    cbn [string_forall] in Hhex.
    apply andb_prop in Hhex as [Hc [Hc2 _]%andb_prop].
    now apply long_base16_digits. }
  do 32 (destruct h as [|? h]; [discriminate Hlen|]).
  destruct h; [clear Hlen|discriminate Hlen].
  cbn [string_forall] in Hhex.
  repeat (apply andb_prop in Hhex as [(? & ? & ?)%hexlow_facts Hhex]).
  clear Hhex.
  unfold UUID_.
  match goal with |- context [hyphenate ?s] =>
    set (h := s) in *; set (X := hyphenate h) end.
  assert (HX1 : remove_all "urn:" 0 X = X).
  { apply (remove_all_absent "u" "rn:" X).
    subst X h. cbv [hyphenate substring String.append].
    cbn [string_forall]. use_char_facts. reflexivity. }
  assert (HX2 : remove_all "uuid:" 0 X = X).
  { apply (remove_all_absent "u" "uid:" X).
    subst X h. cbv [hyphenate substring String.append].
    cbn [string_forall]. use_char_facts. reflexivity. }
  assert (HX3 : strip_braces X = X).
  { subst X h. cbv [hyphenate substring String.append strip_braces].
    cbn [lstrip_braces]. use_char_facts.
    cbv [String.rev String.rev_app]. cbn [lstrip_braces]. use_char_facts.
    reflexivity. }
  assert (HX4 : without_char "-" X = h).
  { subst X h. cbv [hyphenate substring String.append].
    repeat first [ rewrite without_char_cons_ne by assumption
                 | rewrite without_char_cons_eq ].
    reflexivity. }
  assert (HX : remove_all "-" 0
                 (strip_braces
                    (remove_all "uuid:" 0 (remove_all "urn:" 0 X))) = h).
  { now rewrite HX1, HX2, HX3, remove_all_single. }
  unfold UUID_parse. cbv zeta. rewrite HX, Hlb.
  change (negb (String.length h =? 32)%nat) with false. cbv iota.
  assert (Hr : (0 <=? Z.of_N n) && (Z.of_N n <? 2 ^ 128) = true).
  { apply andb_true_intro. split; [apply Z.leb_le; lia|].
    apply Z.ltb_lt. change (2 ^ 128) with (Z.of_N (2 ^ 128)). lia. }
  now rewrite Hr, N2Z.id.
Qed.

Lemma UUID_unicode_UUID u w :
  (int u < 2 ^ 128)%N → UUID_ (unicode_UUID u) w = (Returned u, w).
Proof.
  intros H. destruct u as [n]. cbn [int] in H.
  change (unicode_UUID (mkUUID n)) with (hyphenate (hex_digits 32 n "")).
  apply UUID_of_hyphenated.
  - now rewrite hex_digits_length.
  - now apply hex_digits_hexlow.
  - now apply long16_hex_digits_32.
  - exact H.
Qed.

(** X13: a volume that carries the tags [create_volume] builds for cluster
    [cluster_id] (lines 199-203) is recognised by [_is_cluster_volume]
    (lines 111-116): asked about any cluster id, the check answers [True]
    when that id is [cluster_id] and [False] when it is another, and never
    raises.  [cluster_id] is a UUID, a number below 2^128. *)
Theorem stamped_volume_is_recognised (cluster_id other dataset_id : UUID)
    (cio_volume : CIOVolume.t) (w : World) :
  (int cluster_id < 2 ^ 128)%N →
  CIOVolume.tags cio_volume = create_volume_metadata cluster_id dataset_id →
  fst (_is_cluster_volume other cio_volume w)
  = Returned (bool_decide (cluster_id = other)).
Proof.
  intros Hc Htags. rewrite is_cluster_volume_cases, Htags.
  assert (Hl : create_volume_metadata cluster_id dataset_id
               !! CLUSTER_ID_LABEL = Some (unicode_UUID cluster_id))
    by (apply create_volume_metadata_lookup; auto).
  now rewrite Hl, (UUID_unicode_UUID cluster_id w Hc).
Qed.

Lemma stamped_volume_is_recognised_witness :
  (int sample_cluster_id < 2 ^ 128)%N
  ∧ CIOVolume.tags stamped_volume
    = create_volume_metadata sample_cluster_id sample_dataset_id
  ∧ fst (_is_cluster_volume sample_dataset_id stamped_volume sample_world)
    = Returned (bool_decide (sample_cluster_id = sample_dataset_id)).
Proof.
  assert (H : (int sample_cluster_id < 2 ^ 128)%N) by reflexivity.
  split; [exact H|]. split; [reflexivity|].
  exact (stamped_volume_is_recognised sample_cluster_id sample_dataset_id
           sample_dataset_id stamped_volume sample_world H eq_refl).
Defined.

(** X14: read back the way line 94 reads it,
    [UUID(tags[DATASET_ID_LABEL])], the dataset-id tag that [create_volume]
    builds (line 202) gives the dataset id it was built from, and changes
    nothing.  [dataset_id] is a UUID, a number below 2^128. *)
Theorem stamped_dataset_id_reads_back (cluster_id dataset_id : UUID)
    (w : World) :
  (int dataset_id < 2 ^ 128)%N →
  (getitem (create_volume_metadata cluster_id dataset_id) DATASET_ID_LABEL
   ≫= UUID_) w
  = (Returned dataset_id, w).
Proof.
  intros Hd. unfold getitem.
  assert (Hl : create_volume_metadata cluster_id dataset_id
               !! DATASET_ID_LABEL = Some (unicode_UUID dataset_id))
    by (apply create_volume_metadata_lookup; auto).
  rewrite Hl. erewrite bind_returned by reflexivity.
  now apply UUID_unicode_UUID.
Qed.

Lemma stamped_dataset_id_reads_back_witness :
  (int sample_dataset_id < 2 ^ 128)%N
  ∧ (getitem (create_volume_metadata sample_cluster_id sample_dataset_id)
       DATASET_ID_LABEL ≫= UUID_) sample_world
    = (Returned sample_dataset_id, sample_world).
Proof.
  assert (H : (int sample_dataset_id < 2 ^ 128)%N) by reflexivity.
  split; [exact H|].
  exact (stamped_dataset_id_reads_back sample_cluster_id sample_dataset_id
           sample_world H).
Defined.

(** *** The named errors and the code that raises them *)

Lemma get_cio_volume_loop_no_commented_error objects blockdevice_id w :
  raises_commented_error
    (fst (_get_cio_volume_loop objects blockdevice_id w)) = false.
Proof.
  induction objects as [|o objects IH]; [reflexivity|].
  cbn [_get_cio_volume_loop].
  destruct o; try (erewrite bind_raised by reflexivity; reflexivity).
  erewrite bind_returned by reflexivity.
  destruct (bool_decide (CIOVolume.id v = blockdevice_id)); [reflexivity|].
  exact IH.
Qed.

Lemma get_device_path_checks_no_commented_error blockdevice_id cio_volume
    volume w :
  raises_commented_error
    (fst (get_device_path_checks blockdevice_id cio_volume volume w)) = false.
Proof.
  rewrite get_device_path_checks_cases.
  destruct (BlockDeviceVolume.attached_to volume) as [a|]; [|reflexivity].
  cbn [fst]. rewrite compute_instance_id_cases. cbn [fst].
  destruct (instance_metadata w !! "instance-id") as [s|]; [|reflexivity].
  destruct (all_ascii s); [|reflexivity].
  now destruct (bool_decide (a = s)).
Qed.


